(** * Placeholder icon generators: [create-icons.py] and [create_icons.py]

    A shallow embedding of the two icon scripts and of the library calls
    they make ([struct.pack], [zlib.crc32], [zlib.compress],
    [base64.b64decode], [open]/[write], [print]), followed by the
    properties of the byte streams, files and console lines they produce. *)

From Stdlib Require Import ZArith Lia List Ascii String Strings.Byte DecimalString.
From stdpp Require Import base list strings gmap.

Local Open Scope string_scope.
Local Open Scope list_scope.
Local Open Scope Z_scope.

(** * Part I: the scripts and the library calls they make *)

(** ** Bytes *)

Abbreviation bytes := (list byte).

#[global] Instance byte_eq_dec : EqDecision byte := Byte.byte_eq_dec.

Definition byte_to_Z (b : byte) : Z := Z.of_N (Byte.to_N b).

(** The low eight bits of an integer, as a byte. *)
Definition byte_of_Z (z : Z) : byte :=
  match Byte.of_N (Z.to_N (z mod 256)) with
  | Some b => b
  | None => x00
  end.

(** A Python bytes literal whose characters are all printable ASCII. *)
Definition b (s : string) : bytes := list_byte_of_string s.

(** ** Exceptions and results *)

Inductive exn : Set :=
| StructError    (* struct.error *)
| BinasciiError  (* binascii.Error *)
| OSError.       (* FileNotFoundError, PermissionError, ... *)

Inductive result (A : Type) : Type :=
| Ok (a : A)
| Raise (e : exn).
Arguments Ok {A} a.
Arguments Raise {A} e.

#[global] Instance result_ret : MRet result := fun A a => Ok a.

#[global] Instance result_bind : MBind result := fun A B k r =>
  match r with
  | Ok a => k a
  | Raise e => Raise e
  end.

(** ** [struct.pack] with a big-endian, standard-size format ('>') *)

Inductive fmt : Set :=
| FmtI   (* 'I': unsigned int, 4 bytes *)
| FmtB.  (* 'B': unsigned char, 1 byte *)

Definition be_bytes4 (v : Z) : bytes :=
  [byte_of_Z (Z.shiftr v 24); byte_of_Z (Z.shiftr v 16);
   byte_of_Z (Z.shiftr v 8); byte_of_Z v].

(** One field; a value outside the format's range raises [struct.error]. *)
Definition pack_field (f : fmt) (v : Z) : result bytes :=
  match f with
  | FmtI => if (0 <=? v) && (v <=? 4294967295)
            then Ok (be_bytes4 v) else Raise StructError
  | FmtB => if (0 <=? v) && (v <=? 255)
            then Ok [byte_of_Z v] else Raise StructError
  end.

(** Fields are packed left to right; too few or too many arguments raise. *)
Fixpoint struct_pack (fs : list fmt) (args : list Z) : result bytes :=
  match fs, args with
  | [], [] => Ok []
  | f :: fs', v :: args' =>
      x ← pack_field f v;
      rest ← struct_pack fs' args';
      Ok (x ++ rest)
  | _, _ => Raise StructError
  end.

(** ** [zlib.crc32]

    The CRC-32 of ISO 3309 and of the PNG specification: reflected
    polynomial [0xEDB88320], initial value and final xor [0xFFFFFFFF].
    Python returns it as an unsigned integer. *)

Definition crc32_poly : Z := 0xEDB88320.

Definition crc32_shift (c : Z) : Z :=
  if Z.testbit c 0 then Z.lxor (Z.shiftr c 1) crc32_poly else Z.shiftr c 1.

Definition crc32_update (c : Z) (x : byte) : Z :=
  Nat.iter 8 crc32_shift (Z.lxor c (byte_to_Z x)).

Definition crc32 (data : bytes) : Z :=
  Z.lxor (fold_left crc32_update data 0xFFFFFFFF) 0xFFFFFFFF.

(** ** [zlib.compress]

    The deflate compressor is a library outside the scripts; it is taken
    as an interface.  Its one law is the size bound that zlib documents
    for its output ([compressBound] in zlib.h). *)

Definition compressBound (n : Z) : Z :=
  n + Z.shiftr n 12 + Z.shiftr n 14 + Z.shiftr n 25 + 13.

Class Zlib := {
  compress : bytes -> bytes;
  compress_bound : forall d : bytes,
    Z.of_nat (length (compress d)) <= compressBound (Z.of_nat (length d))
}.

(** ** Python built-ins used by the scripts *)

(** [range(n)]: the integers [0 .. n-1], empty when [n <= 0]. *)
Definition range (n : Z) : list Z := seqZ 0 n.

(** [len(x)] *)
Definition len {A} (l : list A) : Z := Z.of_nat (length l).

(** [str(n)], as used by an f-string field [{n}]. *)
Definition str (n : Z) : string := NilZero.string_of_int (Z.to_int n).

(** ** [base64.b64decode]

    The non-strict decoder of the standard library, on an ASCII [str]:
    characters outside the alphabet are skipped, a run of padding that
    completes a quad ends the input, and leftover sextets raise
    [binascii.Error].  The state is the one the decoder keeps: position in
    the quad, bits left over from the previous character, padding seen. *)

Definition b64_value (c : byte) : option Z :=
  let n := byte_to_Z c in
  if (65 <=? n) && (n <=? 90) then Some (n - 65)        (* A-Z *)
  else if (97 <=? n) && (n <=? 122) then Some (n - 71)  (* a-z *)
  else if (48 <=? n) && (n <=? 57) then Some (n + 4)    (* 0-9 *)
  else if n =? 43 then Some 62                          (* + *)
  else if n =? 47 then Some 63                          (* / *)
  else None.

Fixpoint a2b_base64 (input : bytes) (quad_pos leftchar pads : Z)
    (out : bytes) : result bytes :=
  match input with
  | [] => if quad_pos =? 0 then Ok out else Raise BinasciiError
  | c :: rest =>
      if Byte.eqb c x3d (* '=' *) then
        if (2 <=? quad_pos) && (4 <=? quad_pos + (pads + 1)) then Ok out
        else a2b_base64 rest quad_pos leftchar
               (if 2 <=? quad_pos then pads + 1 else pads) out
      else
        match b64_value c with
        | None => a2b_base64 rest quad_pos leftchar pads out
        | Some v =>
            if quad_pos =? 0 then a2b_base64 rest 1 v 0 out
            else if quad_pos =? 1 then
              a2b_base64 rest 2 (Z.land v 15) 0
                (out ++ [byte_of_Z (Z.lor (Z.shiftl leftchar 2) (Z.shiftr v 4))])
            else if quad_pos =? 2 then
              a2b_base64 rest 3 (Z.land v 3) 0
                (out ++ [byte_of_Z (Z.lor (Z.shiftl leftchar 4) (Z.shiftr v 2))])
            else
              a2b_base64 rest 0 0 0
                (out ++ [byte_of_Z (Z.lor (Z.shiftl leftchar 6) v)])
        end
  end.

Definition b64decode (s : string) : result bytes :=
  a2b_base64 (list_byte_of_string s) 0 0 0 [].

(** ** Files and console

    The part of the outside world the scripts touch: the contents of
    the files by path, the lines printed so far, the paths opened for
    writing so far (both in chronological order), and which paths can be
    opened for writing at all: [writable p] is false when the directory
    of [p] is missing or [p] may not be created or truncated.  The
    scripts never create a directory nor change a permission, so no
    operation below touches [writable]. *)

Record world : Type := World {
  fs : gmap string bytes;
  stdout : list string;
  opened : list string;
  writable : string -> bool
}.

(** A script step: it may raise, and it leaves a world behind either way. *)
Definition io (A : Type) : Type := world -> result A * world.

#[global] Instance io_ret : MRet io := fun A a w => (Ok a, w).

#[global] Instance io_bind : MBind io := fun A B k m w =>
  match m w with
  | (Ok a, w') => k a w'
  | (Raise e, w') => (Raise e, w')
  end.

(** A pure computation that may raise, run inside a script. *)
Definition eval {A} (r : result A) : io A := fun w => (r, w).

(** [open(path, 'wb')]: create or truncate, the handle being the path;
    where the path cannot be opened it raises and changes nothing. *)
Definition open_wb (path : string) : io string := fun w =>
  if writable w path then
    (Ok path,
     {| fs := <[path := []]> (fs w);
        stdout := stdout w;
        opened := opened w ++ [path];
        writable := writable w |})
  else (Raise OSError, w).

(** [f.write(data)] appends at the end of the open file. *)
Definition write (f : string) (data : bytes) : io unit := fun w =>
  (Ok tt,
   {| fs := alter (fun old => old ++ data) f (fs w);
      stdout := stdout w;
      opened := opened w;
      writable := writable w |}).

(** [print(line)] *)
Definition print (line : string) : io unit := fun w =>
  (Ok tt,
   {| fs := fs w; stdout := stdout w ++ [line]; opened := opened w;
      writable := writable w |}).

(** [for x in l: body] *)
Fixpoint for_in {A} (l : list A) (body : A -> io unit) : io unit :=
  match l with
  | [] => mret tt
  | x :: l' => body x;; for_in l' body
  end.

(** The world a script leaves behind. *)
Definition run (script : io unit) (w : world) : world := snd (script w).

(** Whether it ended without raising. *)
Definition completes (script : io unit) (w : world) : Prop :=
  fst (script w) = Ok tt.

(** ** First script: [create-icons.py] *)

Module PngScript.

(** [b'\x89PNG\r\n\x1a\n'] *)
Definition signature : bytes := [x89; x50; x4e; x47; x0d; x0a; x1a; x0a].

(** The nested loop of lines 22-28: one row per [y], one pixel per [x]. *)
Definition raw_data (width height : Z) : bytes :=
  fold_left
    (fun raw_data (y : Z) =>
       let row :=
         fold_left (fun row (x : Z) => row ++ [x00; x77; xb5])
                   (range width) [x00] in
       raw_data ++ row)
    (range height) [].

Definition create_minimal_png `{Zlib} (width height : Z) : result bytes :=
  (* IHDR chunk *)
  ihdr_data ← struct_pack [FmtI; FmtI; FmtB; FmtB; FmtB; FmtB; FmtB]
                          [width; height; 8; 2; 0; 0; 0];
  let ihdr_crc := crc32 (b "IHDR" ++ ihdr_data) in
  ihdr_len ← struct_pack [FmtI] [13];
  ihdr_crc_bytes ← struct_pack [FmtI] [ihdr_crc];
  let ihdr_chunk := ihdr_len ++ b "IHDR" ++ ihdr_data ++ ihdr_crc_bytes in
  (* image data *)
  let raw := raw_data width height in
  (* IDAT chunk *)
  let compressed := compress raw in
  let idat_crc := crc32 (b "IDAT" ++ compressed) in
  idat_len ← struct_pack [FmtI] [len compressed];
  idat_crc_bytes ← struct_pack [FmtI] [idat_crc];
  let idat_chunk := idat_len ++ b "IDAT" ++ compressed ++ idat_crc_bytes in
  (* IEND chunk *)
  let iend_crc := crc32 (b "IEND") in
  iend_len ← struct_pack [FmtI] [0];
  iend_crc_bytes ← struct_pack [FmtI] [iend_crc];
  let iend_chunk := iend_len ++ b "IEND" ++ iend_crc_bytes in
  (* all chunks *)
  let png_data := signature ++ ihdr_chunk ++ idat_chunk ++ iend_chunk in
  Ok png_data.


Definition sizes : list Z := [16; 32; 48; 128].

Definition main `{Zlib} : io unit :=
  for_in sizes (fun size =>
    png_data ← eval (create_minimal_png size size);
    let filename := "assets/icons/icon" +:+ str size +:+ ".png" in
    f ← open_wb filename;
    write f png_data;;
    print ("Created " +:+ filename));;
  print "All icon files created successfully!".

End PngScript.

(** ** Second script: [create_icons.py] *)

Module PixelScript.

Definition blue_pixel : string :=
  "iVBORw0KGgoAAAANSUhEUgAAAAEAAAABCAYAAAAfFcSJAAAADUlEQVR42mNkYPhfDwAChwGA60e6kgAAAABJRU5ErkJggg==".

Definition sizes : list Z := [16; 32; 48; 128].

Definition main : io unit :=
  for_in sizes (fun size =>
    f ← open_wb ("assets/icons/icon" +:+ str size +:+ ".png");
    data ← eval (b64decode blue_pixel);
    write f data;;
    print ("Created icon" +:+ str size +:+ ".png"));;
  print "Icon files created. These are placeholder 1x1 blue pixels.";;
  print "For production, replace with proper icon files.".

End PixelScript.

(** * Part II: the vocabulary of the properties *)

(** ** Reading a PNG stream back

    The reader that the properties below are stated with: it checks the
    signature and then cuts the rest into chunks, each a 4-byte
    big-endian length, a 4-byte type, that many payload bytes and a
    4-byte big-endian CRC. *)

Record chunk : Type := Chunk {
  clength : Z;      (* the declared length field *)
  ctype : bytes;
  cdata : bytes;
  ccrc : Z          (* the stored CRC field *)
}.

(** [int.from_bytes(bs, 'big')] *)
Definition u32_be (bs : bytes) : Z :=
  fold_left (fun acc x => acc * 256 + byte_to_Z x) bs 0.

Definition read_chunk (bs : bytes) : option (chunk * bytes) :=
  let n := Z.to_nat (u32_be (take 4 bs)) in
  let body := drop 8 bs in
  if (length bs <? 12 + n)%nat then None
  else Some ({| clength := u32_be (take 4 bs);
                ctype := take 4 (drop 4 bs);
                cdata := take n body;
                ccrc := u32_be (take 4 (drop n body)) |},
             drop (4 + n) body).

Fixpoint read_chunks (fuel : nat) (bs : bytes) : option (list chunk) :=
  match bs, fuel with
  | [], _ => Some []
  | _, O => None
  | _, S fuel' =>
      '(c, rest) ← read_chunk bs;
      cs ← read_chunks fuel' rest;
      Some (c :: cs)
  end.

Definition read_png (bs : bytes) : option (list chunk) :=
  if decide (take 8 bs = PngScript.signature)
  then read_chunks (length bs) (drop 8 bs)
  else None.

(** The stored CRC is the CRC-32 of type and payload, and the declared
    length is the payload's length. *)
Definition chunk_ok (c : chunk) : bool :=
  (clength c =? len (cdata c)) && (ccrc c =? crc32 (ctype c ++ cdata c)).

(** A stream is well formed when it reads back as an IHDR chunk with a
    13-byte payload, then further chunks of which one is IDAT and the last
    is an empty IEND, every chunk carrying its own length and CRC-32. *)
Definition png_wellformed (bs : bytes) : bool :=
  match read_png bs with
  | Some (ihdr :: cs) =>
      bool_decide (ctype ihdr = b "IHDR") && (clength ihdr =? 13)
      && forallb chunk_ok (ihdr :: cs)
      && existsb (fun c => bool_decide (ctype c = b "IDAT")) cs
      && match last cs with
         | Some iend => bool_decide (ctype iend = b "IEND") && (clength iend =? 0)
         | None => false
         end
  | _ => false
  end.

(** The width and height an IHDR chunk declares. *)
Definition ihdr_width (c : chunk) : Z := u32_be (take 4 (cdata c)).
Definition ihdr_height (c : chunk) : Z := u32_be (take 4 (drop 4 (cdata c))).

(** ** The stream [create_minimal_png] is meant to build *)

(** The bytes of one chunk, as the PNG format lays them out. *)
Definition chunk_bytes (ty : string) (data : bytes) : bytes :=
  be_bytes4 (len data) ++ b ty ++ data ++ be_bytes4 (crc32 (b ty ++ data)).

(** The 13 bytes of an IHDR payload for 8-bit RGB, no interlace. *)
Definition ihdr_payload (width height : Z) : bytes :=
  be_bytes4 width ++ be_bytes4 height ++ [x08; x02; x00; x00; x00].

(** One scanline: the filter byte, then [width] pixels. *)
Definition scanline (width : Z) : bytes :=
  x00 :: concat (replicate (Z.to_nat width) [x00; x77; xb5]).

(** The stream the function is meant to build. *)
Definition png_stream `{Zlib} (width height : Z) : bytes :=
  PngScript.signature
    ++ chunk_bytes "IHDR" (ihdr_payload width height)
    ++ chunk_bytes "IDAT" (compress (PngScript.raw_data width height))
    ++ chunk_bytes "IEND" [].

(** The arguments on which no [struct.pack] call of [create_minimal_png]
    raises: both dimensions and the compressed length fit 32 bits. *)
Definition packable `{Zlib} (width height : Z) : Prop :=
  0 <= width < 2 ^ 32 /\ 0 <= height < 2 ^ 32
  /\ len (compress (PngScript.raw_data width height)) < 2 ^ 32.

(** The three chunks of the stream, as records. *)
Definition png_chunks `{Zlib} (width height : Z) : list chunk :=
  let compressed := compress (PngScript.raw_data width height) in
  [ {| clength := 13; ctype := b "IHDR";
       cdata := ihdr_payload width height;
       ccrc := crc32 (b "IHDR" ++ ihdr_payload width height) |};
    {| clength := len compressed; ctype := b "IDAT";
       cdata := compressed;
       ccrc := crc32 (b "IDAT" ++ compressed) |};
    {| clength := 0; ctype := b "IEND"; cdata := [];
       ccrc := crc32 (b "IEND") |} ].

(** ** The worlds the scripts leave behind *)

(** The path an icon of a given size is written to. *)
Definition icon_path (size : Z) : string :=
  "assets/icons/icon" +:+ str size +:+ ".png".

(** The four paths, in the order the loops visit them. *)
Definition icon_paths : list string :=
  ["assets/icons/icon16.png"; "assets/icons/icon32.png";
   "assets/icons/icon48.png"; "assets/icons/icon128.png"].

(** The image the second script decodes: a 1x1 RGBA PNG of 70 bytes. *)
Definition pixel_bytes : bytes :=
  [x89; x50; x4e; x47; x0d; x0a; x1a; x0a;
   x00; x00; x00; x0d; x49; x48; x44; x52;
   x00; x00; x00; x01; x00; x00; x00; x01; x08; x06; x00; x00; x00;
   x1f; x15; xc4; x89;
   x00; x00; x00; x0d; x49; x44; x41; x54;
   x78; xda; x63; x64; x60; xf8; x5f; x0f; x00; x02; x87; x01; x80;
   xeb; x47; xba; x92;
   x00; x00; x00; x00; x49; x45; x4e; x44; xae; x42; x60; x82].

(** The precondition of a full run: each of the four icon paths can be
    opened for writing. *)
Definition icons_writable (w : world) : Prop :=
  forall p, In p icon_paths -> writable w p = true.

(** A world with no files and no output in which every path can be
    opened, and one in which none can (say, no [assets/icons/]). *)
Definition fresh_world : world :=
  {| fs := ∅; stdout := []; opened := []; writable := fun _ => true |}.

Definition barren_world : world :=
  {| fs := ∅; stdout := []; opened := []; writable := fun _ => false |}.

(** What one iteration of the loop does to the world when its file can
    be opened. *)
Definition png_step `{Zlib} (size : Z) (w : world) : world :=
  {| fs := <[icon_path size := png_stream size size]> (fs w);
     stdout := stdout w ++ ["Created " +:+ icon_path size];
     opened := opened w ++ [icon_path size];
     writable := writable w |}.

(** What one iteration of the second script's loop does to the world
    when its file can be opened. *)
Definition pixel_step (size : Z) (w : world) : world :=
  {| fs := <[icon_path size := pixel_bytes]> (fs w);
     stdout := stdout w ++ ["Created icon" +:+ str size +:+ ".png"];
     opened := opened w ++ [icon_path size];
     writable := writable w |}.

(** A loop of steps each guarded by an [open]: it stops, raising, at the
    first size whose file cannot be opened. *)
Fixpoint for_steps (step : Z -> world -> world) (l : list Z) (w : world)
    : result unit * world :=
  match l with
  | [] => (Ok tt, w)
  | size :: l' =>
      if writable w (icon_path size)
      then for_steps step l' (step size w)
      else (Raise OSError, w)
  end.

(** The file system after writing the given files in order, stopping at
    the first path that cannot be opened. *)
Fixpoint put_while (ok : string -> bool) (files : list (string * bytes))
    (m : gmap string bytes) : gmap string bytes :=
  match files with
  | [] => m
  | (p, x) :: rest => if ok p then put_while ok rest (<[p := x]> m) else m
  end.

(** The files each script means to write. *)
Definition png_files `{Zlib} : list (string * bytes) :=
  [("assets/icons/icon16.png", png_stream 16 16);
   ("assets/icons/icon32.png", png_stream 32 32);
   ("assets/icons/icon48.png", png_stream 48 48);
   ("assets/icons/icon128.png", png_stream 128 128)].

Definition pixel_files : list (string * bytes) :=
  [("assets/icons/icon16.png", pixel_bytes);
   ("assets/icons/icon32.png", pixel_bytes);
   ("assets/icons/icon48.png", pixel_bytes);
   ("assets/icons/icon128.png", pixel_bytes)].

(** ** A reference deflater

    The simplest encoder that meets the interface: a zlib stream made of
    stored (uncompressed) deflate blocks of at most 65535 bytes, closed
    by the Adler-32 of the input. *)

Definition adler32 (data : bytes) : Z :=
  let '(s1, s2) :=
    fold_left (fun '(s1, s2) x =>
                 let s1' := (s1 + byte_to_Z x) mod 65521 in
                 (s1', (s2 + s1') mod 65521))
              data (1, 0) in
  s2 * 65536 + s1.

Definition le_bytes2 (v : Z) : bytes := [byte_of_Z v; byte_of_Z (Z.shiftr v 8)].

Definition stored_block (final : bool) (blk : bytes) : bytes :=
  [if final then x01 else x00]
    ++ le_bytes2 (len blk) ++ le_bytes2 (65535 - len blk) ++ blk.

Definition block_max : nat := N.to_nat 65535.

Fixpoint stored_blocks (fuel : nat) (d : bytes) : bytes :=
  match fuel with
  | O => stored_block true d
  | S fuel' =>
      if (length d <=? block_max)%nat then stored_block true d
      else stored_block false (take block_max d)
             ++ stored_blocks fuel' (drop block_max d)
  end.

Definition deflate_stored (d : bytes) : bytes :=
  [x78; x01] ++ stored_blocks (length d) d ++ be_bytes4 (adler32 d).

(** * Part III: lemmas *)

(** ** The library models on known values *)

Example crc32_IEND : crc32 (b "IEND") = 0xAE426082.
Proof. vm_compute. reflexivity. Qed.

Example crc32_empty : crc32 [] = 0.
Proof. reflexivity. Qed.

Example crc32_check : crc32 (b "123456789") = 0xCBF43926.
Proof. vm_compute. reflexivity. Qed.

Example adler32_Wikipedia : adler32 (b "Wikipedia") = 0x11E60398.
Proof. vm_compute. reflexivity. Qed.

Example deflate_stored_empty :
  deflate_stored [] = [x78; x01; x01; x00; x00; xff; xff; x00; x00; x00; x01].
Proof. vm_compute. reflexivity. Qed.

Example b64decode_Zm9v : b64decode "Zm9vYg==" = Ok (b "foob").
Proof. vm_compute. reflexivity. Qed.

(** The image inside [blue_pixel] is itself a well-formed PNG: its three
    stored CRCs agree with [crc32]. *)
Example pixel_bytes_wellformed : png_wellformed pixel_bytes = true.
Proof. vm_compute. reflexivity. Qed.

Example b64decode_bad_padding : b64decode "Zm9vYg=" = Raise BinasciiError.
Proof. vm_compute. reflexivity. Qed.

Lemma b64decode_blue_pixel :
  b64decode PixelScript.blue_pixel = Ok pixel_bytes.
Proof. vm_compute. reflexivity. Qed.

(** ** Bytes and 32-bit fields *)

Lemma byte_to_Z_range (x : byte) : 0 <= byte_to_Z x < 256.
Proof.
  unfold byte_to_Z. pose proof (Byte.to_N_bounded x). lia.
Qed.

Lemma byte_to_of_Z (z : Z) : byte_to_Z (byte_of_Z z) = z mod 256.
Proof.
  unfold byte_to_Z, byte_of_Z.
  pose proof (Z.mod_pos_bound z 256 ltac:(lia)) as Hm.
  destruct (Byte.of_N (Z.to_N (z mod 256))) as [x|] eqn:E.
  - apply Byte.to_of_N in E. rewrite E. lia.
  - apply Byte.of_N_None_iff in E. lia.
Qed.

Lemma length_be_bytes4 (v : Z) : length (be_bytes4 v) = 4%nat.
Proof. reflexivity. Qed.

Lemma u32_be_bytes4 (v : Z) : 0 <= v < 2 ^ 32 -> u32_be (be_bytes4 v) = v.
Proof.
  intros Hv. unfold u32_be, be_bytes4. cbn [fold_left].
  rewrite !byte_to_of_Z, !Z.shiftr_div_pow2 by lia.
  change (2 ^ 24) with 16777216. change (2 ^ 16) with 65536.
  change (2 ^ 8) with 256. change (2 ^ 32) with 4294967296 in Hv.
  Z.div_mod_to_equations. lia.
Qed.

Lemma lxor_u32 (x y : Z) :
  0 <= x < 2 ^ 32 -> 0 <= y < 2 ^ 32 -> 0 <= Z.lxor x y < 2 ^ 32.
Proof.
  intros Hx Hy.
  assert (Hn : 0 <= Z.lxor x y) by (apply Z.lxor_nonneg; lia).
  split; [exact Hn|].
  destruct (Z.eq_dec (Z.lxor x y) 0) as [->|Hne]; [lia|].
  apply Z.log2_lt_pow2; [lia|].
  pose proof (Z.log2_lxor x y ltac:(lia) ltac:(lia)) as Hl.
  assert (Hlog : forall t, 0 <= t < 2 ^ 32 -> Z.log2 t < 32).
  { intros t Ht. destruct (Z.eq_dec t 0) as [->|]; [reflexivity|].
    apply Z.log2_lt_pow2; lia. }
  pose proof (Hlog x Hx). pose proof (Hlog y Hy). lia.
Qed.

Lemma crc32_shift_u32 (c : Z) : 0 <= c < 2 ^ 32 -> 0 <= crc32_shift c < 2 ^ 32.
Proof.
  intros Hc.
  assert (Hs : 0 <= Z.shiftr c 1 < 2 ^ 32).
  { rewrite Z.shiftr_div_pow2 by lia. change (2 ^ 1) with 2.
    change (2 ^ 32) with 4294967296 in *. Z.div_mod_to_equations. lia. }
  unfold crc32_shift. destruct (Z.testbit c 0); [|exact Hs].
  apply lxor_u32; [exact Hs|]. unfold crc32_poly. lia.
Qed.

Lemma crc32_update_u32 (c : Z) (x : byte) :
  0 <= c < 2 ^ 32 -> 0 <= crc32_update c x < 2 ^ 32.
Proof.
  intros Hc. unfold crc32_update.
  assert (H0 : 0 <= Z.lxor c (byte_to_Z x) < 2 ^ 32).
  { apply lxor_u32; [exact Hc|]. pose proof (byte_to_Z_range x). lia. }
  generalize dependent (Z.lxor c (byte_to_Z x)). intros c0 H0.
  generalize 8%nat as n. induction n as [|n IH]; cbn [Nat.iter].
  - exact H0.
  - apply crc32_shift_u32, IH.
Qed.

(** [zlib.crc32] returns an unsigned 32-bit value. *)
Lemma crc32_u32 (data : bytes) : 0 <= crc32 data < 2 ^ 32.
Proof.
  unfold crc32. apply lxor_u32; [|lia].
  assert (H0 : 0 <= 0xFFFFFFFF < 2 ^ 32) by lia.
  generalize dependent 0xFFFFFFFF. induction data as [|x data IH]; intros c Hc.
  - exact Hc.
  - cbn [fold_left]. apply IH, crc32_update_u32, Hc.
Qed.

(** ** [struct.pack] *)

Lemma pack_I_ok (v : Z) :
  0 <= v < 2 ^ 32 -> struct_pack [FmtI] [v] = Ok (be_bytes4 v).
Proof.
  intros Hv. cbn [struct_pack pack_field].
  replace ((0 <=? v) && (v <=? 4294967295)) with true by lia.
  reflexivity.
Qed.

Lemma pack_I_raise (v : Z) :
  ~ 0 <= v < 2 ^ 32 -> struct_pack [FmtI] [v] = Raise StructError.
Proof.
  intros Hv. cbn [struct_pack pack_field].
  replace ((0 <=? v) && (v <=? 4294967295)) with false by lia.
  reflexivity.
Qed.

Lemma pack_ihdr_ok (width height : Z) :
  0 <= width < 2 ^ 32 -> 0 <= height < 2 ^ 32 ->
  struct_pack [FmtI; FmtI; FmtB; FmtB; FmtB; FmtB; FmtB]
              [width; height; 8; 2; 0; 0; 0]
  = Ok (ihdr_payload width height).
Proof.
  intros Hw Hh. cbn [struct_pack pack_field].
  replace ((0 <=? width) && (width <=? 4294967295)) with true by lia.
  replace ((0 <=? height) && (height <=? 4294967295)) with true by lia.
  reflexivity.
Qed.

Lemma pack_ihdr_raise (width height : Z) :
  ~ (0 <= width < 2 ^ 32 /\ 0 <= height < 2 ^ 32) ->
  struct_pack [FmtI; FmtI; FmtB; FmtB; FmtB; FmtB; FmtB]
              [width; height; 8; 2; 0; 0; 0]
  = Raise StructError.
Proof.
  intros Hwh. cbn [struct_pack pack_field].
  destruct ((0 <=? width) && (width <=? 4294967295)) eqn:Ew; [|reflexivity].
  destruct ((0 <=? height) && (height <=? 4294967295)) eqn:Eh; [|reflexivity].
  lia.
Qed.

Lemma bind_Ok {A B} (a : A) (k : A -> result B) : (Ok a ≫= k) = k a.
Proof. reflexivity. Qed.

Lemma bind_pack_I {A} (v : Z) (k : bytes -> result A) :
  0 <= v < 2 ^ 32 -> (struct_pack [FmtI] [v] ≫= k) = k (be_bytes4 v).
Proof. intros Hv. rewrite (pack_I_ok v Hv). reflexivity. Qed.

(** ** The reference deflater meets the interface *)

Lemma block_max_Z : Z.of_nat block_max = 65535.
Proof. reflexivity. Qed.

Lemma len_app {A} (l1 l2 : list A) : len (l1 ++ l2) = len l1 + len l2.
Proof. unfold len. rewrite length_app. lia. Qed.

Lemma len_nonneg {A} (l : list A) : 0 <= len l.
Proof. unfold len. lia. Qed.

Lemma to_nat_len {A} (l : list A) : Z.to_nat (len l) = length l.
Proof. unfold len. apply Nat2Z.id. Qed.

Lemma len_stored_block (final : bool) (blk : bytes) :
  len (stored_block final blk) = 5 + len blk.
Proof.
  unfold stored_block. rewrite !len_app.
  change (len [if final then x01 else x00]) with 1.
  change (len (le_bytes2 (len blk))) with 2.
  change (len (le_bytes2 (65535 - len blk))) with 2. lia.
Qed.

Lemma len_stored_blocks (fuel : nat) (d : bytes) :
  len (stored_blocks fuel d) <= len d + 5 * (len d / 65535 + 1).
Proof.
  revert d. induction fuel as [|fuel IH]; intros d; cbn [stored_blocks].
  - rewrite len_stored_block. pose proof (len_nonneg d).
    Z.div_mod_to_equations. lia.
  - destruct (Nat.leb_spec (length d) block_max) as [Hle|Hgt].
    + rewrite len_stored_block. pose proof (len_nonneg d).
      Z.div_mod_to_equations. lia.
    + rewrite len_app, len_stored_block.
      specialize (IH (drop block_max d)).
      assert (Ht : len (take block_max d) = 65535).
      { unfold len. rewrite length_take. pose proof block_max_Z. lia. }
      assert (Hd : len (drop block_max d) = len d - 65535).
      { unfold len. rewrite length_drop. pose proof block_max_Z. lia. }
      rewrite Ht. rewrite Hd in IH.
      Z.div_mod_to_equations. lia.
Qed.

Lemma deflate_stored_bound (d : bytes) :
  Z.of_nat (length (deflate_stored d)) <= compressBound (Z.of_nat (length d)).
Proof.
  change (len (deflate_stored d) <= compressBound (len d)).
  unfold deflate_stored, compressBound.
  rewrite !len_app. change (len (be_bytes4 (adler32 d))) with 4.
  change (len [x78; x01]) with 2.
  pose proof (len_stored_blocks (length d) d) as Hb.
  pose proof (len_nonneg d) as Hn.
  rewrite !Z.shiftr_div_pow2 by lia.
  change (2 ^ 12) with 4096. change (2 ^ 14) with 16384.
  change (2 ^ 25) with 33554432.
  Z.div_mod_to_equations. lia.
Qed.

Definition stored_zlib : Zlib :=
  {| compress := deflate_stored; compress_bound := deflate_stored_bound |}.

(** ** The scanline data *)

Lemma fold_left_append {A B} (r : list A) (l : list B) (init : list A) :
  fold_left (fun acc (_ : B) => acc ++ r) l init
  = init ++ concat (replicate (length l) r).
Proof.
  revert init. induction l as [|y l IH]; intros init; cbn.
  - symmetry. apply app_nil_r.
  - rewrite IH. rewrite <- app_assoc. reflexivity.
Qed.

Lemma length_concat_replicate {A} (n : nat) (r : list A) :
  length (concat (replicate n r)) = (n * length r)%nat.
Proof.
  induction n as [|n IH]; cbn; [reflexivity|].
  rewrite length_app, IH. reflexivity.
Qed.

Lemma raw_data_rows (width height : Z) :
  PngScript.raw_data width height
  = concat (replicate (Z.to_nat height) (scanline width)).
Proof.
  unfold PngScript.raw_data, range, scanline.
  rewrite (fold_left_append [x00; x77; xb5]).
  rewrite fold_left_append. rewrite !length_seqZ. reflexivity.
Qed.

Lemma len_scanline (width : Z) : 0 <= width -> len (scanline width) = 1 + 3 * width.
Proof.
  intros Hw. unfold len, scanline. cbn [length].
  rewrite length_concat_replicate. cbn [length]. lia.
Qed.

Lemma len_raw_data (width height : Z) :
  0 <= width -> 0 <= height ->
  len (PngScript.raw_data width height) = height * (1 + 3 * width).
Proof.
  intros Hw Hh. rewrite raw_data_rows. unfold len at 1.
  rewrite length_concat_replicate.
  pose proof (len_scanline width Hw) as Hs. unfold len in Hs. nia.
Qed.

(** ** What [create_minimal_png] returns, and when it raises *)

Lemma chunk_bytes_IEND :
  chunk_bytes "IEND" [] = be_bytes4 0 ++ b "IEND" ++ be_bytes4 (crc32 (b "IEND")).
Proof. unfold chunk_bytes. rewrite app_nil_r. reflexivity. Qed.

Lemma chunk_bytes_IHDR (width height : Z) :
  chunk_bytes "IHDR" (ihdr_payload width height)
  = be_bytes4 13 ++ b "IHDR" ++ ihdr_payload width height
      ++ be_bytes4 (crc32 (b "IHDR" ++ ihdr_payload width height)).
Proof. reflexivity. Qed.

Section CreateMinimalPng.
Context `{Zlib}.
Import PngScript.

Lemma create_minimal_png_ok (width height : Z) :
  packable width height ->
  create_minimal_png width height = Ok (png_stream width height).
Proof.
  intros (Hw & Hh & Hc). unfold create_minimal_png.
  rewrite (pack_ihdr_ok _ _ Hw Hh), bind_Ok.
  rewrite (bind_pack_I 13) by lia.
  rewrite (bind_pack_I (crc32 _)) by apply crc32_u32.
  rewrite (bind_pack_I (len _))
    by (pose proof (len_nonneg (compress (raw_data width height))); lia).
  rewrite (bind_pack_I (crc32 _)) by apply crc32_u32.
  rewrite (bind_pack_I 0) by lia.
  rewrite (bind_pack_I (crc32 _)) by apply crc32_u32.
  unfold png_stream. rewrite chunk_bytes_IEND, chunk_bytes_IHDR.
  reflexivity.
Qed.

Lemma create_minimal_png_raise (width height : Z) :
  ~ packable width height ->
  create_minimal_png width height = Raise StructError.
Proof.
  intros Hn. unfold create_minimal_png.
  destruct (decide (0 <= width < 2 ^ 32 /\ 0 <= height < 2 ^ 32))
    as [[Hw Hh]|Hwh].
  - rewrite (pack_ihdr_ok _ _ Hw Hh), bind_Ok.
    rewrite (bind_pack_I 13) by lia.
    rewrite (bind_pack_I (crc32 _)) by apply crc32_u32.
    rewrite (pack_I_raise (len _)); [reflexivity|].
    intros Hc. apply Hn. unfold packable. lia.
  - rewrite (pack_ihdr_raise _ _ Hwh). reflexivity.
Qed.

End CreateMinimalPng.

(** ** Reading chunks back *)

Lemma len_chunk_bytes (ty : string) (data : bytes) :
  length (b ty) = 4%nat ->
  length (chunk_bytes ty data) = (12 + length data)%nat.
Proof.
  intros Hty. unfold chunk_bytes.
  rewrite !length_app, !length_be_bytes4, Hty. lia.
Qed.

Lemma read_chunk_fields (lenb tyb data crcb rest : bytes) :
  length lenb = 4%nat -> length tyb = 4%nat -> length crcb = 4%nat ->
  u32_be lenb = len data ->
  read_chunk (lenb ++ tyb ++ data ++ crcb ++ rest)
  = Some ({| clength := len data; ctype := tyb; cdata := data;
             ccrc := u32_be crcb |}, rest).
Proof.
  intros Hl Ht Hc Hn.
  destruct lenb as [|l0 [|l1 [|l2 [|l3 [|? ?]]]]]; try discriminate Hl.
  destruct tyb as [|t0 [|t1 [|t2 [|t3 [|? ?]]]]]; try discriminate Ht.
  destruct crcb as [|c0 [|c1 [|c2 [|c3 [|? ?]]]]]; try discriminate Hc.
  unfold read_chunk. cbn [app take drop firstn skipn].
  rewrite Hn, to_nat_len, take_0, !drop_0.
  rewrite take_app_length, drop_app_length.
  cbn [take firstn length].
  rewrite length_app.
  destruct (Nat.ltb_spec
    (S (S (S (S (S (S (S (S (length data + length (c0 :: c1 :: c2 :: c3 :: rest))))))))))
    (12 + length data)) as [Hlt|_]; [cbn [length] in Hlt; lia|].
  replace (4 + length data)%nat with (length data + 4)%nat by lia.
  rewrite <- drop_drop, drop_app_length. reflexivity.
Qed.

Lemma read_chunk_chunk_bytes (ty : string) (data rest : bytes) :
  length (b ty) = 4%nat -> len data < 2 ^ 32 ->
  read_chunk (chunk_bytes ty data ++ rest)
  = Some ({| clength := len data; ctype := b ty; cdata := data;
             ccrc := crc32 (b ty ++ data) |}, rest).
Proof.
  intros Hty Hlen. unfold chunk_bytes. rewrite <- !app_assoc.
  rewrite read_chunk_fields.
  - rewrite u32_be_bytes4 by apply crc32_u32. reflexivity.
  - apply length_be_bytes4.
  - exact Hty.
  - apply length_be_bytes4.
  - apply u32_be_bytes4. pose proof (len_nonneg data). lia.
Qed.

Lemma read_chunks_chunk_bytes (fuel : nat) (ty : string) (data rest : bytes) :
  length (b ty) = 4%nat -> len data < 2 ^ 32 ->
  read_chunks (S fuel) (chunk_bytes ty data ++ rest)
  = cs ← read_chunks fuel rest;
    Some ({| clength := len data; ctype := b ty; cdata := data;
             ccrc := crc32 (b ty ++ data) |} :: cs).
Proof.
  intros Hty Hlen.
  pose proof (read_chunk_chunk_bytes ty data rest Hty Hlen) as Hr.
  destruct (chunk_bytes ty data ++ rest) as [|x bs] eqn:E.
  - apply (f_equal length) in E. rewrite length_app, len_chunk_bytes in E by exact Hty.
    cbn in E. lia.
  - cbn [read_chunks]. rewrite Hr. reflexivity.
Qed.

Lemma chunk_ok_intro (c : chunk) :
  clength c = len (cdata c) -> ccrc c = crc32 (ctype c ++ cdata c) ->
  chunk_ok c = true.
Proof. intros Hl Hc. unfold chunk_ok. rewrite Hl, Hc, !Z.eqb_refl. reflexivity. Qed.

Section ReadBack.
Context `{Zlib}.
Import PngScript.

Lemma length_png_stream (width height : Z) :
  length (png_stream width height)
  = (57 + length (compress (raw_data width height)))%nat.
Proof.
  unfold png_stream. rewrite !length_app, !len_chunk_bytes by reflexivity.
  change (length signature) with 8%nat.
  change (length (ihdr_payload width height)) with 13%nat.
  change (length (@nil byte)) with 0%nat. lia.
Qed.

Lemma read_png_stream (width height : Z) :
  len (compress (raw_data width height)) < 2 ^ 32 ->
  read_png (png_stream width height) = Some (png_chunks width height).
Proof.
  intros Hc. unfold read_png.
  rewrite length_png_stream. unfold png_stream.
  rewrite (take_app_length' signature) by reflexivity.
  rewrite decide_True by reflexivity.
  rewrite (drop_app_length' signature) by reflexivity.
  change (57 + ?n)%nat with (S (S (S (54 + n)))).
  rewrite read_chunks_chunk_bytes by (reflexivity || (change (len (ihdr_payload width height)) with 13; lia)).
  rewrite read_chunks_chunk_bytes by (reflexivity || exact Hc).
  rewrite <- (app_nil_r (chunk_bytes "IEND" [])).
  rewrite read_chunks_chunk_bytes by (reflexivity || (change (len (@nil byte)) with 0; lia)).
  rewrite (app_nil_r (b "IEND")).
  reflexivity.
Qed.

Lemma png_stream_wellformed (width height : Z) :
  len (compress (raw_data width height)) < 2 ^ 32 ->
  png_wellformed (png_stream width height) = true.
Proof.
  intros Hc. unfold png_wellformed. rewrite (read_png_stream _ _ Hc).
  unfold png_chunks. cbn [forallb existsb last clength ctype].
  rewrite !chunk_ok_intro; [reflexivity|..]; cbn [clength cdata ctype ccrc].
  all: reflexivity.
Qed.

End ReadBack.

(** ** Running the scripts *)

Lemma for_in_guarded (l : list Z) (body : Z -> io unit)
    (step : Z -> world -> world) :
  (forall size w, In size l ->
     body size w = if writable w (icon_path size)
                   then (Ok tt, step size w) else (Raise OSError, w)) ->
  forall w, for_in l body w = for_steps step l w.
Proof.
  induction l as [|x l IH]; intros Hbody w; cbn [for_in for_steps].
  - reflexivity.
  - unfold mbind, io_bind. rewrite Hbody by (left; reflexivity).
    destruct (writable w (icon_path x)); [|reflexivity].
    apply IH. intros y w' Hy. apply Hbody. right. exact Hy.
Qed.


Ltac icon_literals :=
  change (icon_path 16) with "assets/icons/icon16.png" in *;
  change (icon_path 32) with "assets/icons/icon32.png" in *;
  change (icon_path 48) with "assets/icons/icon48.png" in *;
  change (icon_path 128) with "assets/icons/icon128.png" in *.


(** Each of the four paths can be opened when they all can. *)
Lemma icons_writable_each (w : world) :
  icons_writable w ->
  writable w "assets/icons/icon16.png" = true
  /\ writable w "assets/icons/icon32.png" = true
  /\ writable w "assets/icons/icon48.png" = true
  /\ writable w "assets/icons/icon128.png" = true.
Proof.
  intros Hw. unfold icons_writable, icon_paths in Hw.
  repeat split; apply Hw; cbn [In]; tauto.
Qed.

(** With every path open to writing, the guarded writes are four plain
    inserts. *)
Lemma put_while_all (ok : string -> bool) (x16 x32 x48 x128 : bytes)
    (m : gmap string bytes) :
  ok "assets/icons/icon16.png" = true ->
  ok "assets/icons/icon32.png" = true ->
  ok "assets/icons/icon48.png" = true ->
  ok "assets/icons/icon128.png" = true ->
  put_while ok [("assets/icons/icon16.png", x16);
                ("assets/icons/icon32.png", x32);
                ("assets/icons/icon48.png", x48);
                ("assets/icons/icon128.png", x128)] m
  = <["assets/icons/icon128.png" := x128]>
      (<["assets/icons/icon48.png" := x48]>
         (<["assets/icons/icon32.png" := x32]>
            (<["assets/icons/icon16.png" := x16]> m))).
Proof.
  intros E16 E32 E48 E128. cbn [put_while].
  rewrite E16, E32, E48, E128. reflexivity.
Qed.

(** Writing four files over an earlier attempt at the same four paths,
    under the same permissions, leaves only the later attempt. *)
Lemma put_while_over (ok : string -> bool)
    (x16 x32 x48 x128 y16 y32 y48 y128 : bytes) (m : gmap string bytes) :
  put_while ok [("assets/icons/icon16.png", x16);
                ("assets/icons/icon32.png", x32);
                ("assets/icons/icon48.png", x48);
                ("assets/icons/icon128.png", x128)]
    (put_while ok [("assets/icons/icon16.png", y16);
                   ("assets/icons/icon32.png", y32);
                   ("assets/icons/icon48.png", y48);
                   ("assets/icons/icon128.png", y128)] m)
  = put_while ok [("assets/icons/icon16.png", x16);
                  ("assets/icons/icon32.png", x32);
                  ("assets/icons/icon48.png", x48);
                  ("assets/icons/icon128.png", x128)] m.
Proof.
  cbn [put_while].
  destruct (ok "assets/icons/icon16.png"); [|reflexivity].
  destruct (ok "assets/icons/icon32.png");
    [destruct (ok "assets/icons/icon48.png");
       [destruct (ok "assets/icons/icon128.png")|]|].
  all: apply map_eq; intros p; rewrite !lookup_insert;
    repeat case_decide; first [reflexivity | congruence].
Qed.

Section PngRun.
Context `{Zlib}.
Import PngScript.

Lemma sizes_packable (size : Z) : In size sizes -> packable size size.
Proof.
  intros Hin.
  assert (Hs : 0 <= size <= 128).
  { unfold sizes in Hin. cbn [In] in Hin. lia. }
  unfold packable. split; [lia|]. split; [lia|].
  pose proof (compress_bound (raw_data size size)) as Hb.
  fold (len (compress (raw_data size size))) in Hb.
  fold (len (raw_data size size)) in Hb.
  rewrite len_raw_data in Hb by lia.
  unfold compressBound in Hb.
  rewrite !Z.shiftr_div_pow2 in Hb by lia.
  assert (Hn : 0 <= size * (1 + 3 * size) <= 49280) by nia.
  change (2 ^ 12) with 4096 in Hb. change (2 ^ 14) with 16384 in Hb.
  change (2 ^ 25) with 33554432 in Hb. change (2 ^ 32) with 4294967296.
  revert Hb Hn. generalize (size * (1 + 3 * size)). intros n Hb Hn.
  Z.div_mod_to_equations. lia.
Qed.

(** The first script is its loop of guarded steps, then the summary. *)
Lemma png_main_guarded (w : world) :
  main w
  = match for_steps png_step sizes w with
    | (Ok _, w') =>
        (Ok tt,
         {| fs := fs w';
            stdout := stdout w' ++ ["All icon files created successfully!"];
            opened := opened w';
            writable := writable w' |})
    | (Raise e, w') => (Raise e, w')
    end.
Proof.
  unfold main. unfold mbind at 1. unfold io_bind at 1.
  rewrite (for_in_guarded _ _ png_step); [reflexivity|].
  intros size w0 Hin.
  unfold mbind, io_bind, eval, open_wb, write, print.
  rewrite (create_minimal_png_ok _ _ (sizes_packable size Hin)).
  cbv beta iota zeta.
  change ("assets/icons/icon" +:+ str size +:+ ".png") with (icon_path size).
  destruct (writable w0 (icon_path size)); [|reflexivity].
  unfold png_step. cbn [fs stdout opened writable].
  rewrite alter_insert_eq. reflexivity.
Qed.


(** A full run, when every icon path can be opened. *)
Lemma png_main_world (w : world) :
  icons_writable w ->
  main w
  = (Ok tt,
     {| fs := <["assets/icons/icon128.png" := png_stream 128 128]>
              (<["assets/icons/icon48.png" := png_stream 48 48]>
               (<["assets/icons/icon32.png" := png_stream 32 32]>
                (<["assets/icons/icon16.png" := png_stream 16 16]> (fs w))));
        stdout := stdout w
          ++ ["Created assets/icons/icon16.png";
              "Created assets/icons/icon32.png";
              "Created assets/icons/icon48.png";
              "Created assets/icons/icon128.png";
              "All icon files created successfully!"];
        opened := opened w ++ icon_paths;
        writable := writable w |}).
Proof.
  intros Hw. apply icons_writable_each in Hw as (E16 & E32 & E48 & E128).
  rewrite png_main_guarded. unfold sizes.
  cbn [for_steps png_step writable]. icon_literals.
  rewrite E16, E32, E48, E128. unfold png_step.
  cbn [fs stdout opened writable]. icon_literals.
  rewrite <- !app_assoc. reflexivity.
Qed.

(** Whatever can be opened, a run leaves the files in the state of the
    guarded writes, and leaves the permissions alone. *)
Lemma png_run_fs (w : world) :
  fs (run main w) = put_while (writable w) png_files (fs w)
  /\ writable (run main w) = writable w.
Proof.
  unfold run. rewrite png_main_guarded. unfold sizes, png_files.
  cbn [for_steps put_while png_step writable]. icon_literals.
  destruct (writable w "assets/icons/icon16.png"); [|split; reflexivity].
  destruct (writable w "assets/icons/icon32.png"); [|split; reflexivity].
  destruct (writable w "assets/icons/icon48.png"); [|split; reflexivity].
  destruct (writable w "assets/icons/icon128.png"); split; reflexivity.
Qed.

Lemma png_main_lookup (w : world) (size : Z) :
  icons_writable w -> In size sizes ->
  fs (run main w) !! icon_path size = Some (png_stream size size).
Proof.
  intros Hw Hin. unfold run. rewrite (png_main_world w Hw). cbn [snd fs].
  unfold sizes in Hin. cbn [In] in Hin.
  destruct Hin as [<-|[<-|[<-|[<-|[]]]]]; icon_literals;
    repeat (rewrite lookup_insert_ne by discriminate);
    apply lookup_insert_eq.
Qed.

End PngRun.

(** The second script is its loop of guarded steps, then two lines. *)
Lemma pixel_main_guarded (w : world) :
  PixelScript.main w
  = match for_steps pixel_step PixelScript.sizes w with
    | (Ok _, w') =>
        (Ok tt,
         {| fs := fs w';
            stdout := stdout w'
              ++ ["Icon files created. These are placeholder 1x1 blue pixels.";
                  "For production, replace with proper icon files."];
            opened := opened w';
            writable := writable w' |})
    | (Raise e, w') => (Raise e, w')
    end.
Proof.
  unfold PixelScript.main. unfold mbind at 1. unfold io_bind at 1.
  rewrite (for_in_guarded _ _ pixel_step).
  - destruct (for_steps pixel_step PixelScript.sizes w) as [[[]|e] w'];
      [|reflexivity].
    unfold mbind, io_bind, print. cbn [fs stdout opened writable].
    rewrite <- app_assoc. reflexivity.
  - intros size w0 Hin.
    unfold mbind, io_bind, eval, open_wb, write, print.
    rewrite b64decode_blue_pixel.
    change ("assets/icons/icon" +:+ str size +:+ ".png") with (icon_path size).
    destruct (writable w0 (icon_path size)); [|reflexivity].
    unfold pixel_step. cbn [fs stdout opened writable].
    rewrite alter_insert_eq. reflexivity.
Qed.

Lemma pixel_main_world (w : world) :
  icons_writable w ->
  PixelScript.main w
  = (Ok tt,
     {| fs := <["assets/icons/icon128.png" := pixel_bytes]>
              (<["assets/icons/icon48.png" := pixel_bytes]>
               (<["assets/icons/icon32.png" := pixel_bytes]>
                (<["assets/icons/icon16.png" := pixel_bytes]> (fs w))));
        stdout := stdout w
          ++ ["Created icon16.png"; "Created icon32.png";
              "Created icon48.png"; "Created icon128.png";
              "Icon files created. These are placeholder 1x1 blue pixels.";
              "For production, replace with proper icon files."];
        opened := opened w ++ icon_paths;
        writable := writable w |}).
Proof.
  intros Hw. apply icons_writable_each in Hw as (E16 & E32 & E48 & E128).
  rewrite pixel_main_guarded. unfold PixelScript.sizes.
  cbn [for_steps pixel_step writable]. icon_literals.
  rewrite E16, E32, E48, E128. unfold pixel_step.
  cbn [fs stdout opened writable]. icon_literals.
  change ("Created icon" +:+ str 16 +:+ ".png") with "Created icon16.png".
  change ("Created icon" +:+ str 32 +:+ ".png") with "Created icon32.png".
  change ("Created icon" +:+ str 48 +:+ ".png") with "Created icon48.png".
  change ("Created icon" +:+ str 128 +:+ ".png") with "Created icon128.png".
  rewrite <- !app_assoc. reflexivity.
Qed.

Lemma pixel_run_fs (w : world) :
  fs (run PixelScript.main w) = put_while (writable w) pixel_files (fs w)
  /\ writable (run PixelScript.main w) = writable w.
Proof.
  unfold run. rewrite pixel_main_guarded.
  unfold PixelScript.sizes, pixel_files.
  cbn [for_steps put_while pixel_step writable]. icon_literals.
  destruct (writable w "assets/icons/icon16.png"); [|split; reflexivity].
  destruct (writable w "assets/icons/icon32.png"); [|split; reflexivity].
  destruct (writable w "assets/icons/icon48.png"); [|split; reflexivity].
  destruct (writable w "assets/icons/icon128.png"); split; reflexivity.
Qed.

Lemma pixel_main_lookup (w : world) (size : Z) :
  icons_writable w -> In size PixelScript.sizes ->
  fs (run PixelScript.main w) !! icon_path size = Some pixel_bytes.
Proof.
  intros Hw Hin. unfold run. rewrite (pixel_main_world w Hw). cbn [snd fs].
  unfold PixelScript.sizes in Hin. cbn [In] in Hin.
  destruct Hin as [<-|[<-|[<-|[<-|[]]]]]; icon_literals;
    repeat (rewrite lookup_insert_ne by discriminate);
    apply lookup_insert_eq.
Qed.

Lemma fresh_world_writable : icons_writable fresh_world.
Proof. intros p _. reflexivity. Qed.

(** * Part IV: the claims *)

(** C1. For every size in {16, 32, 48, 128}, [create_minimal_png size size]
    returns a stream that reads back as a well-formed PNG of exactly three
    chunks, IHDR, IDAT and IEND, whose declared lengths are 13,
    [len compressed] and 0, each declared length being the length of the
    chunk's payload and each stored CRC the CRC-32 of the chunk's type
    bytes followed by its payload. *)
Theorem C1_png_chunks_valid `{Zlib} (size : Z) :
  In size PngScript.sizes ->
  exists png,
    PngScript.create_minimal_png size size = Ok png
    /\ png_wellformed png = true
    /\ read_png png = Some (png_chunks size size)
    /\ map ctype (png_chunks size size) = [b "IHDR"; b "IDAT"; b "IEND"]
    /\ map clength (png_chunks size size)
       = [13; len (compress (PngScript.raw_data size size)); 0]
    /\ Forall (fun c => clength c = len (cdata c)
                        /\ ccrc c = crc32 (ctype c ++ cdata c))
              (png_chunks size size).
Proof.
  intros Hin. pose proof (sizes_packable size Hin) as Hp.
  exists (png_stream size size).
  split; [apply create_minimal_png_ok, Hp|].
  destruct Hp as (_ & _ & Hc).
  split; [apply png_stream_wellformed, Hc|].
  split; [apply read_png_stream, Hc|].
  split; [reflexivity|]. split; [reflexivity|].
  unfold png_chunks. repeat constructor.
Qed.

(** C1 at size 16, with the reference deflater. *)
Lemma C1_witness :
  exists png,
    PngScript.create_minimal_png (H := stored_zlib) 16 16 = Ok png
    /\ png_wellformed png = true.
Proof.
  destruct (C1_png_chunks_valid (H := stored_zlib) 16) as (png & Hok & Hwf & _).
  - simpl. left. reflexivity.
  - exists png. split; [exact Hok | exact Hwf].
Defined.

(** C2 as stated fails: 4294967296 is a nonnegative width, and with it
    [struct.pack] raises before any chunk is built, so no IHDR chunk is
    produced. *)
Lemma C2_counterexample :
  0 <= 4294967296 /\ 0 <= 16
  /\ PngScript.create_minimal_png (H := stored_zlib) 4294967296 16
     = Raise StructError.
Proof. split; [lia|]. split; [lia|]. vm_compute. reflexivity. Qed.

(** C2, amended. For every width and height in [0, 2^32) whose compressed
    scanline data is shorter than 2^32 bytes, the stream returned by
    [create_minimal_png] is the signature followed by an IHDR chunk:
    length field 13, type 'IHDR', a 13-byte payload made of the width and
    the height as 4-byte big-endian integers, bit depth 8, colour type 2
    and three zero bytes, then the big-endian CRC-32 of 'IHDR' followed by
    that payload.  The declared width and height read back as the
    arguments; every size in {16, 32, 48, 128} is in this domain; and a
    width or height of 2^32 or more makes the function raise
    [struct.error]. *)
Theorem C2_ihdr_chunk `{Zlib} (width height : Z) :
  packable width height ->
  let payload :=
    be_bytes4 width ++ be_bytes4 height ++ [x08; x02; x00; x00; x00] in
  (exists png ihdr cs rest,
     PngScript.create_minimal_png width height = Ok png
     /\ png = PngScript.signature
              ++ (be_bytes4 13 ++ b "IHDR" ++ payload
                    ++ be_bytes4 (crc32 (b "IHDR" ++ payload)))
              ++ rest
     /\ read_png png = Some (ihdr :: cs)
     /\ ctype ihdr = b "IHDR" /\ clength ihdr = 13 /\ cdata ihdr = payload
     /\ ccrc ihdr = crc32 (b "IHDR" ++ payload)
     /\ ihdr_width ihdr = width /\ ihdr_height ihdr = height)
  /\ length payload = 13%nat
  /\ Forall (fun size =>
               exists png ihdr cs,
                 PngScript.create_minimal_png size size = Ok png
                 /\ read_png png = Some (ihdr :: cs)
                 /\ ihdr_width ihdr = size /\ ihdr_height ihdr = size)
            PngScript.sizes
  /\ (forall wd ht : Z,
        2 ^ 32 <= wd \/ 2 ^ 32 <= ht ->
        PngScript.create_minimal_png wd ht = Raise StructError).
Proof.
  intros Hp payload.
  assert (Hdecl : forall wd ht, packable wd ht ->
            ihdr_width {| clength := 13; ctype := b "IHDR";
                          cdata := ihdr_payload wd ht;
                          ccrc := crc32 (b "IHDR" ++ ihdr_payload wd ht) |} = wd
            /\ ihdr_height {| clength := 13; ctype := b "IHDR";
                              cdata := ihdr_payload wd ht;
                              ccrc := crc32 (b "IHDR" ++ ihdr_payload wd ht) |}
               = ht).
  { intros wd ht (Hw & Hh & _). unfold ihdr_width, ihdr_height. cbn [cdata].
    change (take 4 (ihdr_payload wd ht)) with (be_bytes4 wd).
    change (take 4 (drop 4 (ihdr_payload wd ht))) with (be_bytes4 ht).
    rewrite !u32_be_bytes4 by assumption. split; reflexivity. }
  split; [|split; [|split]].
  - exists (png_stream width height). eexists. eexists. eexists.
    split; [apply create_minimal_png_ok, Hp|].
    split; [unfold png_stream; rewrite chunk_bytes_IHDR; reflexivity|].
    split; [apply read_png_stream, Hp|].
    cbn [ctype clength cdata ccrc].
    destruct (Hdecl width height Hp) as [Hw Hh].
    repeat split; assumption || reflexivity.
  - reflexivity.
  - apply Forall_forall. intros size Hin.
    apply list_elem_of_In, sizes_packable in Hin.
    exists (png_stream size size). eexists. eexists.
    split; [apply create_minimal_png_ok, Hin|].
    split; [apply read_png_stream, Hin|].
    apply (Hdecl size size Hin).
  - intros wd ht Hbig. apply create_minimal_png_raise.
    unfold packable. lia.
Qed.

(** C2 at 16 x 16, with the reference deflater. *)
Lemma C2_witness :
  exists png ihdr cs,
    PngScript.create_minimal_png (H := stored_zlib) 16 16 = Ok png
    /\ read_png png = Some (ihdr :: cs)
    /\ ihdr_width ihdr = 16 /\ ihdr_height ihdr = 16.
Proof.
  destruct (C2_ihdr_chunk (H := stored_zlib) 16 16) as [Hex _].
  - unfold packable. split; [lia|]. split; [lia|]. vm_compute. reflexivity.
  - destruct Hex as (png & ihdr & cs & rest & Hok & _ & Hread & _ & _ & _ & _ & Hw & Hh).
    exists png, ihdr, cs. repeat split; assumption.
Defined.

(** C3. When the four icon paths can be opened for writing, then for
    every size in {16, 32, 48, 128} the file the second script leaves at
    [assets/icons/icon<size>.png] is the base64 decoding of [blue_pixel],
    whatever the size: the four files hold the same bytes. *)
Theorem C3_pixel_files_identical (w : world) (size : Z) :
  icons_writable w ->
  In size PixelScript.sizes ->
  exists data,
    b64decode PixelScript.blue_pixel = Ok data
    /\ fs (run PixelScript.main w) !! ("assets/icons/icon" +:+ str size +:+ ".png")
       = Some data
    /\ Forall (fun size' =>
                 fs (run PixelScript.main w)
                    !! ("assets/icons/icon" +:+ str size' +:+ ".png")
                 = Some data)
              PixelScript.sizes.
Proof.
  intros Hw Hin. exists pixel_bytes.
  split; [apply b64decode_blue_pixel|].
  split; [apply (pixel_main_lookup w size Hw Hin)|].
  apply Forall_forall. intros size' Hin'.
  apply (pixel_main_lookup w size' Hw). apply list_elem_of_In, Hin'.
Qed.

(** C3 at size 128, starting from a world where every path opens. *)
Lemma C3_witness :
  fs (run PixelScript.main fresh_world) !! "assets/icons/icon128.png"
  = Some pixel_bytes.
Proof.
  destruct (C3_pixel_files_identical fresh_world 128)
    as (data & Hdec & Hfile & _).
  - intros p _. reflexivity.
  - simpl. right. right. right. left. reflexivity.
  - rewrite b64decode_blue_pixel in Hdec. injection Hdec as <-. exact Hfile.
Defined.

(** C4 as stated fails: at the nonnegative width 4294967296 the function
    raises [struct.error] on its first statement, so no scanline data is
    assembled and no IDAT chunk exists. *)
Lemma C4_counterexample :
  0 <= 4294967296 /\ 0 <= 1
  /\ PngScript.create_minimal_png (H := stored_zlib) 4294967296 1
     = Raise StructError.
Proof. split; [lia|]. split; [lia|]. vm_compute. reflexivity. Qed.

(** C4, amended. For every nonnegative width and height the scanline loop
    yields exactly [height] rows, each the filter byte 0x00 followed by
    [width] copies of the pixel 0x00 0x77 0xb5, [height * (1 + 3 * width)]
    bytes in all; and whenever width and height are below 2^32 and the
    compressed data is shorter than 2^32 bytes, the function returns a
    stream whose IDAT chunk has the compression of exactly this data as
    its payload.  A width or height of 2^32 or more makes the function
    raise [struct.error]. *)
Theorem C4_scanline_data `{Zlib} (width height : Z) :
  0 <= width -> 0 <= height ->
  let row := x00 :: concat (replicate (Z.to_nat width) [x00; x77; xb5]) in
  PngScript.raw_data width height = concat (replicate (Z.to_nat height) row)
  /\ len row = 1 + 3 * width
  /\ len (PngScript.raw_data width height) = height * (1 + 3 * width)
  /\ (packable width height ->
      exists png ihdr idat iend,
        PngScript.create_minimal_png width height = Ok png
        /\ read_png png = Some [ihdr; idat; iend]
        /\ ctype idat = b "IDAT"
        /\ cdata idat = compress (concat (replicate (Z.to_nat height) row)))
  /\ (forall wd ht : Z,
        2 ^ 32 <= wd \/ 2 ^ 32 <= ht ->
        PngScript.create_minimal_png wd ht = Raise StructError).
Proof.
  intros Hw Hh row.
  split; [apply raw_data_rows|].
  split; [apply (len_scanline width Hw)|].
  split; [apply (len_raw_data width height Hw Hh)|].
  split.
  - intros Hp. exists (png_stream width height).
    eexists. eexists. eexists.
    split; [apply create_minimal_png_ok, Hp|].
    destruct Hp as (_ & _ & Hc).
    split; [apply read_png_stream, Hc|].
    split; [reflexivity|].
    cbn [cdata]. rewrite raw_data_rows. reflexivity.
  - intros wd ht Hbig. apply create_minimal_png_raise.
    unfold packable. lia.
Qed.

(** C4 at 2 x 3, with the reference deflater. *)
Lemma C4_witness :
  PngScript.raw_data 2 3
  = [x00; x00; x77; xb5; x00; x77; xb5;
     x00; x00; x77; xb5; x00; x77; xb5;
     x00; x00; x77; xb5; x00; x77; xb5]
  /\ len (PngScript.raw_data 2 3) = 21
  /\ exists png ihdr idat iend,
       PngScript.create_minimal_png (H := stored_zlib) 2 3 = Ok png
       /\ read_png png = Some [ihdr; idat; iend]
       /\ cdata idat = deflate_stored (PngScript.raw_data 2 3).
Proof.
  destruct (C4_scanline_data (H := stored_zlib) 2 3)
    as (Hrows & _ & Hlen & Hidat & _).
  - lia.
  - lia.
  - split; [rewrite Hrows; reflexivity|]. split; [exact Hlen|].
    destruct Hidat as (png & ihdr & idat & iend & Hok & Hread & _ & Hdata).
    + unfold packable. split; [lia|]. split; [lia|]. vm_compute. reflexivity.
    + exists png, ihdr, idat, iend.
      split; [exact Hok|]. split; [exact Hread|].
      rewrite Hdata, Hrows. reflexivity.
Defined.

(** C5. When the four icon paths can be opened for writing, the first
    script ends without raising, and for every size in {16, 32, 48, 128}
    the file it leaves at the icon's path begins with the eight signature
    bytes 0x89 'P' 'N' 'G' 0x0d 0x0a 0x1a 0x0a. *)
Theorem C5_signature_first `{Zlib} (w : world) (size : Z) :
  icons_writable w ->
  In size PngScript.sizes ->
  completes PngScript.main w
  /\ exists png,
       fs (run PngScript.main w) !! ("assets/icons/icon" +:+ str size +:+ ".png")
         = Some png
       /\ PngScript.create_minimal_png size size = Ok png
       /\ take 8 png = [x89; x50; x4e; x47; x0d; x0a; x1a; x0a].
Proof.
  intros Hw Hin. split.
  - unfold completes. rewrite (png_main_world w Hw). reflexivity.
  - exists (png_stream size size). split; [|split].
    + apply (png_main_lookup w size Hw Hin).
    + apply create_minimal_png_ok, sizes_packable, Hin.
    + reflexivity.
Qed.

(** C5 at size 48, with the reference deflater and every path open. *)
Lemma C5_witness :
  exists png,
    fs (run (PngScript.main (H := stored_zlib)) fresh_world)
       !! "assets/icons/icon48.png" = Some png
    /\ take 8 png = [x89; x50; x4e; x47; x0d; x0a; x1a; x0a].
Proof.
  destruct (C5_signature_first (H := stored_zlib) fresh_world 48)
    as (_ & png & Hfile & _ & Hsig).
  - intros p _. reflexivity.
  - simpl. right. right. left. reflexivity.
  - exists png. split; [exact Hfile | exact Hsig].
Defined.

(** C6 as stated fails: at the nonnegative width 4294967296 the function
    raises [struct.error] and returns no byte sequence. *)
Lemma C6_counterexample :
  0 <= 4294967296 /\ 0 <= 0
  /\ PngScript.create_minimal_png (H := stored_zlib) 4294967296 0
     = Raise StructError.
Proof. split; [lia|]. split; [lia|]. vm_compute. reflexivity. Qed.

(** C6, amended. For every width and height in [0, 2^32) whose compressed
    scanline data is shorter than 2^32 bytes, the byte sequence returned
    by [create_minimal_png] is exactly the 8-byte signature, the IHDR
    chunk, one IDAT chunk and the IEND chunk, in this order and with
    nothing before, between or after; the IEND chunk is the length field
    0, the type 'IEND', no payload, and the CRC-32 of the four bytes
    'IEND' alone.  A width or height of 2^32 or more makes the function
    raise [struct.error] and return nothing. *)
Theorem C6_stream_is_concatenation `{Zlib} (width height : Z) :
  packable width height ->
  let iend_chunk := be_bytes4 0 ++ b "IEND" ++ be_bytes4 (crc32 (b "IEND")) in
  PngScript.create_minimal_png width height
  = Ok (PngScript.signature
          ++ chunk_bytes "IHDR" (ihdr_payload width height)
          ++ chunk_bytes "IDAT" (compress (PngScript.raw_data width height))
          ++ iend_chunk)
  /\ iend_chunk
     = [x00; x00; x00; x00; x49; x45; x4e; x44; xae; x42; x60; x82]
  /\ PngScript.signature = [x89; x50; x4e; x47; x0d; x0a; x1a; x0a]
  /\ (forall wd ht : Z,
        2 ^ 32 <= wd \/ 2 ^ 32 <= ht ->
        PngScript.create_minimal_png wd ht = Raise StructError).
Proof.
  intros Hp iend_chunk. split; [|split; [|split]].
  - rewrite (create_minimal_png_ok _ _ Hp). unfold png_stream.
    rewrite chunk_bytes_IEND. reflexivity.
  - vm_compute. reflexivity.
  - reflexivity.
  - intros wd ht Hbig. apply create_minimal_png_raise.
    unfold packable. lia.
Qed.

(** C6 at 32 x 32, with the reference deflater. *)
Lemma C6_witness :
  PngScript.create_minimal_png (H := stored_zlib) 32 32
  = Ok (PngScript.signature
          ++ chunk_bytes "IHDR" (ihdr_payload 32 32)
          ++ chunk_bytes "IDAT" (deflate_stored (PngScript.raw_data 32 32))
          ++ [x00; x00; x00; x00; x49; x45; x4e; x44; xae; x42; x60; x82]).
Proof.
  destruct (C6_stream_is_concatenation (H := stored_zlib) 32 32)
    as (Hok & Hiend & _).
  - unfold packable. split; [lia|]. split; [lia|]. vm_compute. reflexivity.
  - rewrite Hiend in Hok. exact Hok.
Defined.

(** C7. Running either script a second time leaves every file exactly as
    the first run left it, whether or not the icon paths can be opened;
    when they can be opened in both of two starting worlds, what a run
    leaves at the four icon paths is the same in both; evaluating
    [create_minimal_png] on the same arguments, or [b64decode] on
    [blue_pixel], gives the same result in any two worlds and touches
    neither. *)
Theorem C7_rerun_identical `{Zlib} (w w' : world) :
  fs (run PngScript.main (run PngScript.main w)) = fs (run PngScript.main w)
  /\ fs (run PixelScript.main (run PixelScript.main w))
     = fs (run PixelScript.main w)
  /\ (icons_writable w -> icons_writable w' ->
      Forall (fun p => fs (run PngScript.main w) !! p
                       = fs (run PngScript.main w') !! p
                       /\ fs (run PixelScript.main w) !! p
                          = fs (run PixelScript.main w') !! p)
             icon_paths)
  /\ (forall width height : Z,
        eval (PngScript.create_minimal_png width height) w
        = (PngScript.create_minimal_png width height, w)
        /\ fst (eval (PngScript.create_minimal_png width height) w)
           = fst (eval (PngScript.create_minimal_png width height) w'))
  /\ fst (eval (b64decode PixelScript.blue_pixel) w)
     = fst (eval (b64decode PixelScript.blue_pixel) w').
Proof.
  split; [|split; [|split; [|split]]].
  - destruct (png_run_fs (run PngScript.main w)) as [Hfs Hwr].
    destruct (png_run_fs w) as [Hfs0 Hwr0].
    rewrite Hfs, Hwr0, Hfs0. unfold png_files. apply put_while_over.
  - destruct (pixel_run_fs (run PixelScript.main w)) as [Hfs Hwr].
    destruct (pixel_run_fs w) as [Hfs0 Hwr0].
    rewrite Hfs, Hwr0, Hfs0. unfold pixel_files. apply put_while_over.
  - intros Hw Hw'. unfold run.
    rewrite (png_main_world w Hw), (png_main_world w' Hw').
    rewrite (pixel_main_world w Hw), (pixel_main_world w' Hw').
    cbn [snd fs]. unfold icon_paths. repeat constructor.
    all: rewrite !lookup_insert; repeat case_decide;
      first [reflexivity | congruence].
  - intros width height. split; reflexivity.
  - reflexivity.
Qed.

(** C7 for two worlds in which every path opens: one empty, one that
    already holds an unrelated file. *)
Lemma C7_witness :
  fs (run (PngScript.main (H := stored_zlib)) fresh_world)
     !! "assets/icons/icon16.png"
  = fs (run (PngScript.main (H := stored_zlib))
            {| fs := {["notes.txt" := [x41]]}; stdout := ["hello"];
               opened := []; writable := fun _ => true |})
       !! "assets/icons/icon16.png".
Proof.
  destruct (C7_rerun_identical (H := stored_zlib) fresh_world
              {| fs := {["notes.txt" := [x41]]}; stdout := ["hello"];
                 opened := []; writable := fun _ => true |})
    as (_ & _ & Hsame & _).
  assert (Hall : Forall (fun p =>
            fs (run (PngScript.main (H := stored_zlib)) fresh_world) !! p
            = fs (run (PngScript.main (H := stored_zlib))
                      {| fs := {["notes.txt" := [x41]]}; stdout := ["hello"];
                         opened := []; writable := fun _ => true |}) !! p
            /\ fs (run PixelScript.main fresh_world) !! p
               = fs (run PixelScript.main
                         {| fs := {["notes.txt" := [x41]]}; stdout := ["hello"];
                            opened := []; writable := fun _ => true |}) !! p)
          icon_paths).
  { apply Hsame; intros p _; reflexivity. }
  apply Forall_cons in Hall as [[Hpng _] _]. exact Hpng.
Defined.



(** C9 as stated fails for the second script: even with every icon path
    open to writing it prints two closing lines after the four status
    lines, six lines in all. *)
Lemma C9_counterexample :
  icons_writable fresh_world
  /\ stdout (run PixelScript.main fresh_world)
     = ["Created icon16.png"; "Created icon32.png";
        "Created icon48.png"; "Created icon128.png";
        "Icon files created. These are placeholder 1x1 blue pixels.";
        "For production, replace with proper icon files."]
  /\ length (stdout (run PixelScript.main fresh_world)) <> 5%nat.
Proof.
  split; [intros p _; reflexivity|].
  split; [vm_compute; reflexivity | vm_compute; discriminate].
Qed.

(** C9, amended. When the four icon paths can be opened for writing, the
    first script prints exactly one status line per file written, four
    lines, and then exactly one summary line; the second script prints
    exactly one status line per file written, four lines, and then
    exactly two closing lines, the summary and a note on production use.
    Neither prints anything else. *)
Theorem C9_console_lines `{Zlib} (w : world) :
  icons_writable w ->
  stdout (run PngScript.main w)
  = stdout w
      ++ map (fun size : Z =>
                "Created " +:+ ("assets/icons/icon" +:+ str size +:+ ".png"))
             PngScript.sizes
      ++ ["All icon files created successfully!"]
  /\ stdout (run PixelScript.main w)
     = stdout w
         ++ map (fun size : Z => "Created icon" +:+ str size +:+ ".png")
                PixelScript.sizes
         ++ ["Icon files created. These are placeholder 1x1 blue pixels.";
             "For production, replace with proper icon files."]
  /\ length (stdout (run PngScript.main w)) = (length (stdout w) + 5)%nat
  /\ length (stdout (run PixelScript.main w)) = (length (stdout w) + 6)%nat.
Proof.
  intros Hw. unfold run.
  rewrite (png_main_world w Hw), (pixel_main_world w Hw). cbn [snd stdout].
  rewrite !length_app.
  split; [reflexivity|]. split; [reflexivity|]. split; reflexivity.
Qed.

(** C9 from a world with no output where every path opens. *)
Lemma C9_witness :
  length (stdout (run (PngScript.main (H := stored_zlib)) fresh_world)) = 5%nat
  /\ length (stdout (run PixelScript.main fresh_world)) = 6%nat.
Proof.
  destruct (C9_console_lines (H := stored_zlib) fresh_world)
    as (_ & _ & Hpng & Hpix).
  - intros p _. reflexivity.
  - split; [exact Hpng | exact Hpix].
Defined.

(** C10 as stated fails twice over: with width 0 and height 1 the
    scanline loop yields the filter byte, not the empty byte string; and
    the nonnegative width 4294967296 makes the function raise. *)
Lemma C10_counterexample :
  PngScript.raw_data 0 1 = [x00]
  /\ PngScript.raw_data 0 1 <> []
  /\ PngScript.create_minimal_png (H := stored_zlib) 4294967296 0
     = Raise StructError.
Proof.
  split; [reflexivity|]. split; [discriminate|]. vm_compute. reflexivity.
Qed.

(** C10, amended. [create_minimal_png] returns a byte sequence exactly
    when width and height lie in [0, 2^32) and the compressed scanline
    data is shorter than 2^32 bytes, and raises [struct.error] otherwise.
    Where it returns, the degenerate cases included, the stream is well
    formed: three chunks whose length and CRC fields follow the same
    rules.  With height 0 the scanline data is empty and the IDAT payload
    is the compression of the empty byte string; with width 0 the data is
    one filter byte 0x00 per row. *)
Theorem C10_total_where_packable `{Zlib} (width height : Z) :
  (packable width height ->
   exists png,
     PngScript.create_minimal_png width height = Ok png
     /\ png_wellformed png = true
     /\ read_png png = Some (png_chunks width height))
  /\ (~ packable width height ->
      PngScript.create_minimal_png width height = Raise StructError)
  /\ (height = 0 ->
      PngScript.raw_data width height = []
      /\ map cdata (png_chunks width height)
         = [ihdr_payload width 0; compress []; []]
      /\ (0 <= width < 2 ^ 32 -> packable width height))
  /\ (width = 0 ->
      PngScript.raw_data width height = replicate (Z.to_nat height) x00).
Proof.
  split; [|split; [|split]].
  - intros Hp. exists (png_stream width height).
    split; [apply create_minimal_png_ok, Hp|].
    destruct Hp as (_ & _ & Hc).
    split; [apply png_stream_wellformed, Hc | apply read_png_stream, Hc].
  - apply create_minimal_png_raise.
  - intros ->. split; [reflexivity|]. split; [reflexivity|].
    intros Hw. unfold packable. split; [exact Hw|]. split; [lia|].
    pose proof (compress_bound (PngScript.raw_data width 0)) as Hb.
    change (Z.of_nat (length (PngScript.raw_data width 0))) with 0 in Hb.
    change (compressBound 0) with 13 in Hb. unfold len. lia.
  - intros ->. rewrite raw_data_rows. unfold scanline. cbn [replicate concat].
    induction (Z.to_nat height) as [|n IH]; cbn [replicate concat app];
      [reflexivity | rewrite IH; reflexivity].
Qed.

(** C10 at 0 x 0, with the reference deflater. *)
Lemma C10_witness :
  exists png,
    PngScript.create_minimal_png (H := stored_zlib) 0 0 = Ok png
    /\ png_wellformed png = true.
Proof.
  destruct (C10_total_where_packable (H := stored_zlib) 0 0) as (Hret & _).
  destruct Hret as (png & Hok & Hwf & _).
  - unfold packable. split; [lia|]. split; [lia|]. vm_compute. reflexivity.
  - exists png. split; [exact Hok | exact Hwf].
Defined.

(** * Part V: further properties of the code *)

Section Further.
Context `{Zlib}.

(** A returned stream is the expected one, and its arguments were in the
    domain of [struct.pack]. *)
Lemma create_minimal_png_Ok_inv (width height : Z) (png : bytes) :
  PngScript.create_minimal_png width height = Ok png ->
  packable width height /\ png = png_stream width height.
Proof.
  intros Hok.
  assert (Hdec : packable width height \/ ~ packable width height)
    by (unfold packable; lia).
  destruct Hdec as [Hp|Hn].
  - rewrite (create_minimal_png_ok _ _ Hp) in Hok.
    injection Hok as <-. split; [exact Hp | reflexivity].
  - rewrite (create_minimal_png_raise _ _ Hn) in Hok. discriminate Hok.
Qed.

Lemma be_bytes4_inj (v v' : Z) :
  0 <= v < 2 ^ 32 -> 0 <= v' < 2 ^ 32 -> be_bytes4 v = be_bytes4 v' -> v = v'.
Proof.
  intros Hv Hv' Heq. apply (f_equal u32_be) in Heq.
  rewrite !u32_be_bytes4 in Heq by assumption. exact Heq.
Qed.

Lemma png_stream_inj (width height width' height' : Z) :
  packable width height -> packable width' height' ->
  png_stream width height = png_stream width' height' ->
  width = width' /\ height = height'.
Proof.
  intros (Hw & Hh & Hc) (Hw' & Hh' & Hc') Heq.
  apply (f_equal read_png) in Heq.
  rewrite !read_png_stream in Heq by assumption.
  assert (Hpay : ihdr_payload width height = ihdr_payload width' height').
  { apply (f_equal (fun o : option (list chunk) =>
                      match o with
                      | Some (c :: _) => cdata c
                      | _ => []
                      end)) in Heq.
    exact Heq. }
  unfold ihdr_payload in Hpay.
  apply app_inj_1 in Hpay as [Hwd Hrest]; [|reflexivity].
  apply app_inj_1 in Hrest as [Hht _]; [|reflexivity].
  split; apply be_bytes4_inj; assumption.
Qed.


(** X1. Two calls of [create_minimal_png] that return the same bytes were
    given the same width and the same height: the image dimensions can be
    read off the file. *)
Theorem X1_dimensions_injective (width height width' height' : Z)
    (png : bytes) :
  PngScript.create_minimal_png width height = Ok png ->
  PngScript.create_minimal_png width' height' = Ok png ->
  width = width' /\ height = height'.
Proof.
  intros Hok Hok'.
  apply create_minimal_png_Ok_inv in Hok as [Hp ->].
  apply create_minimal_png_Ok_inv in Hok' as [Hp' Heq].
  apply (png_stream_inj _ _ _ _ Hp Hp' Heq).
Qed.

(** X2. A returned stream is exactly 57 bytes longer than the compressed
    scanline data (8 of signature, 25 of IHDR, 12 of IDAT framing, 12 of
    IEND), hence at most 57 bytes more than zlib's bound for
    [height * (1 + 3 * width)] input bytes. *)
Theorem X2_stream_length (width height : Z) (png : bytes) :
  PngScript.create_minimal_png width height = Ok png ->
  len png = 57 + len (compress (PngScript.raw_data width height))
  /\ len png <= 57 + compressBound (height * (1 + 3 * width)).
Proof.
  intros Hok. apply create_minimal_png_Ok_inv in Hok as [(Hw & Hh & _) ->].
  assert (Hlen : len (png_stream width height)
                 = 57 + len (compress (PngScript.raw_data width height))).
  { unfold len. rewrite length_png_stream. lia. }
  split; [exact Hlen|]. rewrite Hlen.
  pose proof (compress_bound (PngScript.raw_data width height)) as Hb.
  fold (len (compress (PngScript.raw_data width height))) in Hb.
  fold (len (PngScript.raw_data width height)) in Hb.
  rewrite len_raw_data in Hb by lia. lia.
Qed.

(** X3. When the four icon paths can be opened for writing, then after
    the first script has run the file at
    [assets/icons/icon<size>.png] is a well-formed PNG whose header
    declares width and height [size], the number in its name; and the
    files of two different sizes differ. *)
Theorem X3_png_files_match_their_names (w : world) (size : Z) :
  icons_writable w ->
  In size PngScript.sizes ->
  (exists png ihdr cs,
     fs (run PngScript.main w) !! ("assets/icons/icon" +:+ str size +:+ ".png")
       = Some png
     /\ png_wellformed png = true
     /\ read_png png = Some (ihdr :: cs)
     /\ ihdr_width ihdr = size /\ ihdr_height ihdr = size)
  /\ Forall (fun size' =>
               size' <> size ->
               fs (run PngScript.main w)
                  !! ("assets/icons/icon" +:+ str size' +:+ ".png")
               <> fs (run PngScript.main w)
                     !! ("assets/icons/icon" +:+ str size +:+ ".png"))
            PngScript.sizes.
Proof.
  intros Hw Hin. pose proof (sizes_packable size Hin) as Hp. split.
  - exists (png_stream size size). eexists. eexists.
    split; [apply (png_main_lookup w size Hw Hin)|].
    split; [apply png_stream_wellformed, Hp|].
    split; [apply read_png_stream, Hp|].
    destruct Hp as (Hs & _ & _).
    unfold ihdr_width, ihdr_height. cbn [cdata].
    change (take 4 (ihdr_payload size size)) with (be_bytes4 size).
    change (take 4 (drop 4 (ihdr_payload size size))) with (be_bytes4 size).
    rewrite !u32_be_bytes4 by assumption. split; reflexivity.
  - apply Forall_forall. intros size' Hin' Hne Heq.
    apply list_elem_of_In in Hin'.
    pose proof (png_main_lookup w size Hw Hin) as Hl.
    pose proof (png_main_lookup w size' Hw Hin') as Hl'.
    unfold icon_path in Hl, Hl'. rewrite Hl, Hl' in Heq.
    assert (Hs : png_stream size' size' = png_stream size size)
      by congruence.
    apply png_stream_inj in Hs as [Hs _];
      [contradiction | apply sizes_packable; assumption..].
Qed.

End Further.

Lemma X1_witness :
  PngScript.create_minimal_png (H := stored_zlib) 2 3
  = Ok (png_stream (H := stored_zlib) 2 3)
  /\ (2 = 2 /\ 3 = 3).
Proof.
  assert (Hok : PngScript.create_minimal_png (H := stored_zlib) 2 3
                = Ok (png_stream (H := stored_zlib) 2 3))
    by (vm_compute; reflexivity).
  split; [exact Hok|].
  exact (X1_dimensions_injective (H := stored_zlib) 2 3 2 3 _ Hok Hok).
Defined.

Lemma X2_witness :
  len (png_stream (H := stored_zlib) 2 3) = 57 + 32.
Proof.
  destruct (X2_stream_length (H := stored_zlib) 2 3
              (png_stream (H := stored_zlib) 2 3)) as [Hlen _].
  - vm_compute. reflexivity.
  - rewrite Hlen. vm_compute. reflexivity.
Defined.

Lemma X3_witness :
  exists png ihdr cs,
    fs (run (PngScript.main (H := stored_zlib)) fresh_world)
       !! "assets/icons/icon32.png" = Some png
    /\ read_png png = Some (ihdr :: cs)
    /\ ihdr_width ihdr = 32 /\ ihdr_height ihdr = 32.
Proof.
  destruct (X3_png_files_match_their_names (H := stored_zlib)
              fresh_world 32) as [Hex _].
  - intros p _. reflexivity.
  - simpl. right. left. reflexivity.
  - destruct Hex as (png & ihdr & cs & Hfile & _ & Hread & Hw & Hh).
    exists png, ihdr, cs.
    split; [exact Hfile|]. split; [exact Hread|].
    split; [exact Hw | exact Hh].
Defined.

(** X4. When the four icon paths can be opened for writing, then after
    the second script has run the file at
    [assets/icons/icon<size>.png] is a well-formed PNG whose header
    declares a 1 x 1 image (bit depth 8, colour type 6), whatever the
    size in its name: no file has the dimensions its name announces. *)
Theorem X4_pixel_files_are_1x1 (w : world) (size : Z) :
  icons_writable w ->
  In size PixelScript.sizes ->
  exists png ihdr cs,
    fs (run PixelScript.main w) !! ("assets/icons/icon" +:+ str size +:+ ".png")
      = Some png
    /\ png_wellformed png = true
    /\ read_png png = Some (ihdr :: cs)
    /\ cdata ihdr = be_bytes4 1 ++ be_bytes4 1 ++ [x08; x06; x00; x00; x00]
    /\ ihdr_width ihdr = 1 /\ ihdr_height ihdr = 1
    /\ ihdr_width ihdr <> size.
Proof.
  intros Hwr Hin.
  assert (Hread : exists ihdr cs,
            read_png pixel_bytes = Some (ihdr :: cs)
            /\ cdata ihdr = be_bytes4 1 ++ be_bytes4 1 ++ [x08; x06; x00; x00; x00]
            /\ ihdr_width ihdr = 1 /\ ihdr_height ihdr = 1).
  { eexists. eexists. split; [vm_compute; reflexivity|].
    split; [reflexivity|]. split; reflexivity. }
  destruct Hread as (ihdr & cs & Hread & Hdata & Hw & Hh).
  exists pixel_bytes, ihdr, cs.
  split; [apply (pixel_main_lookup w size Hwr Hin)|].
  split; [apply pixel_bytes_wellformed|].
  split; [exact Hread|]. split; [exact Hdata|].
  split; [exact Hw|]. split; [exact Hh|].
  rewrite Hw. unfold PixelScript.sizes in Hin. cbn [In] in Hin. lia.
Qed.

Lemma X4_witness :
  exists png ihdr cs,
    fs (run PixelScript.main fresh_world)
       !! "assets/icons/icon16.png" = Some png
    /\ read_png png = Some (ihdr :: cs)
    /\ ihdr_width ihdr = 1 /\ ihdr_height ihdr = 1.
Proof.
  destruct (X4_pixel_files_are_1x1 fresh_world 16)
    as (png & ihdr & cs & Hfile & _ & Hread & _ & Hw & Hh & _).
  - intros p _. reflexivity.
  - simpl. left. reflexivity.
  - exists png, ihdr, cs.
    split; [exact Hfile|]. split; [exact Hread|].
    split; [exact Hw | exact Hh].
Defined.

(** X5. The two scripts write to the same four paths, so whichever runs
    last decides what the files hold: running the second after the first
    leaves the file system as the second alone would, and the other way
    round.  This holds whether or not the paths can be opened: both
    scripts stop at the same path. *)
Theorem X5_last_script_wins `{Zlib} (w : world) :
  fs (run PixelScript.main (run PngScript.main w))
  = fs (run PixelScript.main w)
  /\ fs (run PngScript.main (run PixelScript.main w))
     = fs (run PngScript.main w).
Proof.
  destruct (png_run_fs w) as [Hpng Hpngw].
  destruct (pixel_run_fs w) as [Hpix Hpixw].
  split.
  - destruct (pixel_run_fs (run PngScript.main w)) as [Hfs _].
    rewrite Hfs, Hpngw, Hpng, Hpix.
    unfold png_files, pixel_files. apply put_while_over.
  - destruct (png_run_fs (run PixelScript.main w)) as [Hfs _].
    rewrite Hfs, Hpixw, Hpix, Hpng.
    unfold png_files, pixel_files. apply put_while_over.
Qed.

(** Reading at offset [j] of block [i] in [n] copies of a block. *)
Lemma lookup_concat_replicate {A} (n i j : nat) (r : list A) :
  (i < n)%nat -> (j < length r)%nat ->
  concat (replicate n r) !! (i * length r + j)%nat = r !! j.
Proof.
  revert i. induction n as [|n IH]; intros i Hi Hj; [lia|].
  cbn [replicate concat]. destruct i as [|i].
  - cbn [Nat.mul Nat.add]. apply lookup_app_l. exact Hj.
  - rewrite lookup_app_r by (cbn [Nat.mul]; lia).
    replace (S i * length r + j - length r)%nat
      with (i * length r + j)%nat by (cbn [Nat.mul]; lia).
    apply IH; [lia | exact Hj].
Qed.

Lemma length_scanline (width : Z) :
  length (scanline width) = S (Z.to_nat width * 3).
Proof.
  unfold scanline. cbn [length]. rewrite length_concat_replicate. reflexivity.
Qed.

(** X6. The image is one flat colour: in the scanline data, row [y]
    starts at offset [y * (1 + 3 * width)] with the filter byte 0x00
    (also when the image has no columns), and the pixel in column [x] of
    that row is the three bytes 0x00 0x77 0xb5 at offsets [1 + 3 * x],
    [2 + 3 * x] and [3 + 3 * x] of the row. *)
Theorem X6_every_pixel_blue (width height x y : Z) :
  0 <= width -> 0 <= y < height ->
  let raw := PngScript.raw_data width height in
  let row_start := y * (1 + 3 * width) in
  raw !! Z.to_nat row_start = Some x00
  /\ (0 <= x < width ->
      raw !! Z.to_nat (row_start + 1 + 3 * x) = Some x00
      /\ raw !! Z.to_nat (row_start + 1 + 3 * x + 1) = Some x77
      /\ raw !! Z.to_nat (row_start + 1 + 3 * x + 2) = Some xb5).
Proof.
  intros Hwd Hy raw row_start. unfold raw, row_start.
  rewrite raw_data_rows.
  assert (Hidx : forall j : nat, (j < length (scanline width))%nat ->
            concat (replicate (Z.to_nat height) (scanline width))
              !! Z.to_nat (y * (1 + 3 * width) + Z.of_nat j)
            = scanline width !! j).
  { intros j Hj.
    replace (Z.to_nat (y * (1 + 3 * width) + Z.of_nat j))
      with (Z.to_nat y * length (scanline width) + j)%nat
      by (rewrite length_scanline; nia).
    apply lookup_concat_replicate; [lia | exact Hj]. }
  pose proof (length_scanline width) as Hlen.
  split.
  - replace (y * (1 + 3 * width)) with (y * (1 + 3 * width) + Z.of_nat 0)
      by lia.
    rewrite Hidx by lia. reflexivity.
  - intros Hx.
    assert (Hpx : forall k : nat, (k < 3)%nat ->
              scanline width !! S (Z.to_nat x * 3 + k)
              = [x00; x77; xb5] !! k).
    { intros k Hk. unfold scanline. cbn [lookup list_lookup].
      apply (lookup_concat_replicate (Z.to_nat width) (Z.to_nat x) k
               [x00; x77; xb5]); [lia | exact Hk]. }
    split; [|split].
    + replace (y * (1 + 3 * width) + 1 + 3 * x)
        with (y * (1 + 3 * width) + Z.of_nat (S (Z.to_nat x * 3 + 0))) by lia.
      rewrite Hidx by lia. rewrite Hpx by lia. reflexivity.
    + replace (y * (1 + 3 * width) + 1 + 3 * x + 1)
        with (y * (1 + 3 * width) + Z.of_nat (S (Z.to_nat x * 3 + 1))) by lia.
      rewrite Hidx by lia. rewrite Hpx by lia. reflexivity.
    + replace (y * (1 + 3 * width) + 1 + 3 * x + 2)
        with (y * (1 + 3 * width) + Z.of_nat (S (Z.to_nat x * 3 + 2))) by lia.
      rewrite Hidx by lia. rewrite Hpx by lia. reflexivity.
Qed.

Lemma X6_witness :
  PngScript.raw_data 2 3 !! 14%nat = Some x00
  /\ PngScript.raw_data 2 3 !! 18%nat = Some x00
  /\ PngScript.raw_data 2 3 !! 19%nat = Some x77
  /\ PngScript.raw_data 2 3 !! 20%nat = Some xb5.
Proof.
  destruct (X6_every_pixel_blue 2 3 1 2) as [Hfilter Hpixel].
  - lia.
  - lia.
  - split; [exact Hfilter|]. apply Hpixel. lia.
Defined.

(** X7. If the first icon path cannot be opened (say [assets/icons/] is
    missing), each script stops at its first [open] with [OSError]: no
    file is written, no line is printed, the world is as it was. *)
Theorem X7_first_open_fails `{Zlib} (w : world) :
  writable w "assets/icons/icon16.png" = false ->
  PngScript.main w = (Raise OSError, w)
  /\ PixelScript.main w = (Raise OSError, w).
Proof.
  intros Hno. rewrite png_main_guarded, pixel_main_guarded.
  unfold PngScript.sizes, PixelScript.sizes. cbn [for_steps].
  icon_literals. rewrite Hno. split; reflexivity.
Qed.

Lemma X7_witness :
  PngScript.main (H := stored_zlib) barren_world
  = (Raise OSError, barren_world)
  /\ PixelScript.main barren_world = (Raise OSError, barren_world).
Proof.
  apply (X7_first_open_fails (H := stored_zlib) barren_world). reflexivity.
Defined.

(** X8. If the first icon path can be opened but the second cannot, each
    script raises [OSError] at the second file: [icon16.png] has been
    written and its status line printed, nothing else has been written
    or printed, and the closing lines never appear. *)
Theorem X8_second_open_fails `{Zlib} (w : world) :
  writable w "assets/icons/icon16.png" = true ->
  writable w "assets/icons/icon32.png" = false ->
  (fst (PngScript.main w) = Raise OSError
   /\ fs (run PngScript.main w)
      = <["assets/icons/icon16.png" := png_stream 16 16]> (fs w)
   /\ stdout (run PngScript.main w)
      = stdout w ++ ["Created assets/icons/icon16.png"]
   /\ opened (run PngScript.main w)
      = opened w ++ ["assets/icons/icon16.png"])
  /\ (fst (PixelScript.main w) = Raise OSError
      /\ fs (run PixelScript.main w)
         = <["assets/icons/icon16.png" := pixel_bytes]> (fs w)
      /\ stdout (run PixelScript.main w) = stdout w ++ ["Created icon16.png"]
      /\ opened (run PixelScript.main w)
         = opened w ++ ["assets/icons/icon16.png"]).
Proof.
  intros H16 H32. unfold run.
  rewrite png_main_guarded, pixel_main_guarded.
  unfold PngScript.sizes, PixelScript.sizes.
  cbn [for_steps png_step pixel_step writable]. icon_literals.
  rewrite H16, H32. cbn [fst snd fs stdout opened].
  repeat split; reflexivity.
Qed.

Lemma X8_witness :
  fst (PixelScript.main
         {| fs := ∅; stdout := []; opened := [];
            writable := fun p => String.eqb p "assets/icons/icon16.png" |})
  = Raise OSError
  /\ stdout (run PixelScript.main
               {| fs := ∅; stdout := []; opened := [];
                  writable := fun p => String.eqb p "assets/icons/icon16.png" |})
     = ["Created icon16.png"].
Proof.
  destruct (X8_second_open_fails (H := stored_zlib)
              {| fs := ∅; stdout := []; opened := [];
                 writable := fun p => String.eqb p "assets/icons/icon16.png" |})
    as (_ & Hraise & _ & Hout & _).
  - reflexivity.
  - reflexivity.
  - split; [exact Hraise | exact Hout].
Defined.
